(** * Repeater Roundabout: the registry exporters of [scripts/update.py]

    A shallow embedding of the record construction ([repeater_from_args],
    [repeater_from_repeaterbook], the merge in [generate_repeater_df]), of the
    two channel-table exporters ([format_df_for_chirp], [format_df_for_d878])
    and of the pin clustering of [write_map_md].

    Conventions of the embedding.
    - A Python exception is a value [Raise e]; a function that can raise
      returns [result A].
    - A Python value is a [value]; [VNone] stands for both [None] and the
      missing cell (NaN) of a pandas frame, [VInf] for the two infinite
      floats.
    - A frame is a list of rows in index order, a row is a finite map from
      column names to values.  Every column statement of the source is
      elementwise, so it is embedded as the same statement applied to each
      row; a step that raises for one row raises for the frame.
    - Binary floating point is idealised: numbers are exact rationals. *)

From Stdlib Require Import QArith Qround Qabs ZArith String Ascii DecimalString.
From stdpp Require Import gmap strings list fin_maps.

Open Scope string_scope.

(** ** Exceptions *)

Inductive exn : Type :=
  | ValueError
  | IndexError
  | TypeError.

Inductive result (A : Type) : Type :=
  | Ok (a : A)
  | Raise (e : exn).

Arguments Ok {A} a.
Arguments Raise {A} e.

#[export] Instance result_ret : MRet result := λ A a, Ok a.

#[export] Instance result_bind : MBind result := λ A B k m,
  match m with
  | Ok a => k a
  | Raise e => Raise e
  end.

#[export] Instance result_fmap : FMap result := λ A B f m,
  match m with
  | Ok a => Ok (f a)
  | Raise e => Raise e
  end.

Definition raises {A : Type} (m : result A) : Prop := ∃ e, m = Raise e.

(** ** Python values *)

#[warnings="-register-all"]
Inductive value : Type :=
  | VNone
  | VStr (s : string)
  | VInt (z : Z)
  | VFloat (q : Q)
  | VInf (negative : bool)
  | VList (l : list value).

(** Truth value of an object, as [if val] tests it. *)
Definition truthy (v : value) : bool :=
  match v with
  | VNone => false
  | VStr s => negb (String.eqb s "")
  | VInt z => negb (Z.eqb z 0)
  | VFloat q => negb (Qeq_bool q 0)
  | VInf _ => true
  | VList l => match l with [] => false | _ => true end
  end.

(** ** Strings *)

(** [s[n:]] *)
Fixpoint str_from (n : nat) (s : string) : string :=
  match n, s with
  | O, _ => s
  | S n', String _ s' => str_from n' s'
  | S _, EmptyString => EmptyString
  end.

(** [s[:-1]] *)
Fixpoint str_drop_last (s : string) : string :=
  match s with
  | EmptyString => EmptyString
  | String c EmptyString => EmptyString
  | String c s' => String c (str_drop_last s')
  end.

(** [s[-1]], when [s] is not empty *)
Fixpoint str_last (s : string) : option ascii :=
  match s with
  | EmptyString => None
  | String c EmptyString => Some c
  | String _ s' => str_last s'
  end.

(** [s.split(sep)] for a non-empty separator: the pieces between the
    non-overlapping occurrences of [sep], found left to right.  [skip]
    counts the characters of a matched separator still to be passed over,
    [cur] is the piece being read. *)
Fixpoint split_aux (sep : string) (skip : nat) (cur : string) (s : string)
  : list string :=
  match s with
  | EmptyString => [cur]
  | String c s' =>
      match skip with
      | S k => split_aux sep k cur s'
      | O =>
          if String.prefix sep s
          then cur :: split_aux sep (String.length sep - 1) "" s'
          else split_aux sep 0 (cur +:+ String c "") s'
      end
  end.

Definition split (sep : string) (s : string) : list string :=
  split_aux sep 0 "" s.

(** [l[i]] on a list, raising [IndexError] out of range *)
Definition index {A : Type} (l : list A) (i : nat) : result A :=
  match l !! i with
  | Some a => Ok a
  | None => Raise IndexError
  end.

Definition is_digit (c : ascii) : bool :=
  let n := nat_of_ascii c in (48 <=? n)%nat && (n <=? 57)%nat.

(** The characters the pattern class [\s] matches, among ASCII: blank, the
    controls 9 to 13 and the separators 28 to 31. *)
Definition is_space (c : ascii) : bool :=
  let n := nat_of_ascii c in
  (n =? 32)%nat || ((9 <=? n)%nat && (n <=? 13)%nat)
  || ((28 <=? n)%nat && (n <=? 31)%nat).

(** The longest prefix whose characters satisfy [p], and the rest. *)
Fixpoint span (p : ascii → bool) (s : string) : string * string :=
  match s with
  | EmptyString => (EmptyString, EmptyString)
  | String c s' =>
      if p c
      then let '(a, b) := span p s' in (String c a, b)
      else (EmptyString, s)
  end.

(** [s] without the prefix [p], when it starts with it *)
Fixpoint strip_prefix (p s : string) : option string :=
  match p, s with
  | EmptyString, _ => Some s
  | String a p', String b s' =>
      if Ascii.eqb a b then strip_prefix p' s' else None
  | String _ _, EmptyString => None
  end.

(** ** Decimal numerals *)

Definition digit_val (c : ascii) : N := N.of_nat (nat_of_ascii c - 48).

Fixpoint digits_val (acc : N) (s : string) : N :=
  match s with
  | EmptyString => acc
  | String c s' => digits_val (10 * acc + digit_val c) s'
  end.

Fixpoint all_digits (s : string) : bool :=
  match s with
  | EmptyString => true
  | String c s' => is_digit c && all_digits s'
  end.

Fixpoint pow10 (n : nat) : positive :=
  match n with
  | O => 1
  | S n' => 10 * pow10 n'
  end.

(** An unsigned numeral [ddd], [ddd.ddd], [ddd.] or [.ddd], read exactly. *)
Definition parse_unsigned (s : string) : option Q :=
  let '(ip, rest) := span is_digit s in
  match rest with
  | EmptyString =>
      if String.eqb ip "" then None
      else Some (Qred (Z.of_N (digits_val 0 ip) # 1))
  | String "." fp =>
      if all_digits fp && negb (String.eqb (ip +:+ fp) "")
      then Some (Qred (Z.of_N (digits_val 0 (ip +:+ fp))
                       # pow10 (String.length fp)))
      else None
  | String _ _ => None
  end.

(** The numerals of the registry: an optional sign and an unsigned numeral.
    [float(s)] and [pd.to_numeric] agree on them.  Spellings that only some
    of the Python readers take (exponents, [inf], [nan], blanks around the
    numeral, digit grouping) are not registry data and are not numerals
    here. *)
Definition parse_decimal (s : string) : option Q :=
  match s with
  | String "+" s' => parse_unsigned s'
  | String "-" s' => Qopp <$> parse_unsigned s'
  | _ => parse_unsigned s
  end.

(** [float(s)] on a string *)
Definition py_float (s : string) : result Q :=
  match parse_decimal s with
  | Some q => Ok q
  | None => Raise ValueError
  end.

(** ** Fixed-point formatting *)

Definition Qltb (x y : Q) : bool :=
  match Qcompare x y with Lt => true | _ => false end.

(** The integer nearest to [x], a tie going to the even neighbour. *)
Definition round_half_even (x : Q) : Z :=
  let f := Qfloor x in
  match Qcompare (x - inject_Z f) (1 # 2) with
  | Lt => f
  | Gt => (f + 1)%Z
  | Eq => if Z.even f then f else (f + 1)%Z
  end.

Definition dec (n : Z) : string := NilZero.string_of_uint (N.to_uint (Z.to_N n)).

Fixpoint zeros (n : nat) : string :=
  match n with
  | O => ""
  | S n' => String "0" (zeros n')
  end.

(** [f"{q:.<d>f}"]: sign, integer part, and [d] digits after the point. *)
Definition format_f (d : nat) (q : Q) : string :=
  let n := round_half_even (Qabs q * inject_Z (Z.pos (pow10 d))) in
  let ip := dec (n / Z.pos (pow10 d)) in
  let fp := dec (n mod Z.pos (pow10 d)) in
  (if Qltb q 0 then "-" else "")
  +:+ ip
  +:+ match d with
      | O => ""
      | S _ => "." +:+ zeros (d - String.length fp) +:+ fp
      end.

(** [round(q, d)] of numpy: the nearest multiple of [10^-d]. *)
Definition round_to (d : nat) (q : Q) : Q :=
  Qred (round_half_even (q * inject_Z (Z.pos (pow10 d))) # pow10 d).

(** ** Frames *)

Abbreviation row := (gmap string value).

(** The cell of a row under a column; a column the row has no value for
    reads as missing. *)
Definition cell (r : row) (c : string) : value := default VNone (r !! c).

(** [df.loc[mask, col] = v], for one row *)
Definition loc_set (mask : bool) (col : string) (v : value) (r : row) : row :=
  if mask then <[col := v]> r else r.

(** [df.rename(columns={old: new})], for one row *)
Definition rename_col (old new : string) (r : row) : row :=
  partial_alter (λ _, r !! old) new (delete old r).

(** [df[cols]]: the listed columns only *)
Definition select (cols : list string) (r : row) : row :=
  filter (λ kv, kv.1 ∈ cols) r.

(** [series == s] *)
Definition eq_str (v : value) (s : string) : bool :=
  match v with
  | VStr x => String.eqb x s
  | _ => false
  end.

(** [series.isin(l)] *)
Definition isin (v : value) (l : list string) : bool :=
  match v with
  | VStr x => existsb (String.eqb x) l
  | _ => false
  end.

(** [series.str[i]]: missing where there is no such character or no string *)
Definition str_get (i : nat) (v : value) : value :=
  match v with
  | VStr s =>
      match String.get i s with
      | Some c => VStr (String c "")
      | None => VNone
      end
  | _ => VNone
  end.

(** [series.str[i:]] *)
Definition str_slice_from (i : nat) (v : value) : value :=
  match v with
  | VStr s => VStr (str_from i s)
  | _ => VNone
  end.

(** [series.str[i:j]] *)
Definition str_slice (i j : nat) (v : value) : value :=
  match v with
  | VStr s => VStr (substring i (j - i) s)
  | _ => VNone
  end.

(** [series.str.startswith(p)]: missing where there is no string *)
Definition str_startswith (p : string) (v : value) : option bool :=
  match v with
  | VStr s => Some (String.prefix p s)
  | _ => None
  end.

(** [a + b] on string columns: missing where either side is *)
Definition str_add (a b : value) : value :=
  match a, b with
  | VStr x, VStr y => VStr (x +:+ y)
  | _, _ => VNone
  end.

(** A boolean mask used in [df.loc[mask, ...]]: pandas refuses a mask with
    a missing entry. *)
Definition mask (b : option bool) : result bool :=
  match b with
  | Some b => Ok b
  | None => Raise ValueError
  end.

(** ** The registry *)

(** A row of [assets/repeaters.json], with the columns the exporters and the
    map read.  The descriptive columns (group, location, long name, website)
    are carried along by the source and never read by the code embedded
    here. *)
Record Repeater : Type := mkRepeater {
  Callsign : string;
  Mode : string;
  Output_MHz : string;
  Offset_MHz : string;
  Tone_Hz : string;
  Coordinates : option (Q * Q)
}.

Definition to_row (r : Repeater) : row :=
  let base : row :=
    <["Callsign" := VStr (Callsign r)]>
    (<["Mode" := VStr (Mode r)]>
    (<["Output (MHz)" := VStr (Output_MHz r)]>
    (<["Offset (MHz)" := VStr (Offset_MHz r)]>
    (<["Tone (Hz)" := VStr (Tone_Hz r)]> ∅)))) in
  match Coordinates r with
  | Some (lat, lon) => <["Coordinates" := VList [VFloat lat; VFloat lon]]> base
  | None => base
  end.

(** ** The Generic-FM exporter: [format_df_for_chirp] *)

Definition chirp_modes : list string := ["FM"; "NBFM"; "Fusion"].

Definition chirp_columns : list string :=
  ["Name"; "Frequency"; "Duplex"; "Offset"; "Tone"; "rToneFreq"; "cToneFreq";
   "DtcsCode"; "DtcsPolarity"; "Mode"; "TStep"; "Skip"; "Comment"; "URCALL";
   "RPT1CALL"; "RPT2CALL"; "DVCODE"].

(** [lambda x: f"{float(x):.06f}"] on a cell *)
Definition format_offset (x : value) : result value :=
  match x with
  | VStr s => q ← py_float s; mret (VStr (format_f 6 q))
  | VInt z => mret (VStr (format_f 6 (inject_Z z)))
  | VFloat q => mret (VStr (format_f 6 q))
  | VInf negative => mret (VStr (if negative then "-inf" else "inf"))
  | VNone => mret (VStr "nan")
  | VList _ => Raise TypeError
  end.

(** The statements of [format_df_for_chirp] after the mode filter, for one
    row, in the order of the source. *)
Definition chirp_row (r : row) : result row :=
  let r := loc_set (eq_str (cell r "Mode") "NBFM") "Mode" (VStr "NFM") r in
  let r := loc_set (eq_str (cell r "Mode") "Fusion") "Mode" (VStr "FM") r in
  let r := <["Duplex" := str_get 0 (cell r "Offset (MHz)")]> r in
  offset ← format_offset (str_slice_from 1 (cell r "Offset (MHz)"));
  let r := <["Offset" := offset]> r in
  let r := <["Comment" := str_add (str_add (cell r "Callsign") (VStr " - "))
                                  (cell r "Output (MHz)")]> r in
  let r := rename_col "Callsign" "Name" r in
  let r := rename_col "Output (MHz)" "Frequency" r in
  let r := rename_col "Tone (Hz)" "rToneFreq" r in
  let r := <["Tone" := VStr "Tone"]> r in
  let r := <["cToneFreq" := VStr "88.5"]> r in
  let r := <["DtcsCode" := VStr "023"]> r in
  let r := <["DtcsPolarity" := VStr "NN"]> r in
  let r := <["TStep" := VStr "5.00"]> r in
  dcs ← mask (str_startswith "D" (cell r "rToneFreq"));
  let r := loc_set dcs "Tone" (VStr "DTCS") r in
  let r := loc_set dcs "DtcsCode" (str_slice 1 4 (cell r "rToneFreq")) r in
  let r := loc_set dcs "rToneFreq" (VStr "88.5") r in
  let r := foldl (λ r col, <[col := VNone]> r) r
                 ["Skip"; "URCALL"; "RPT1CALL"; "RPT2CALL"; "DVCODE"] in
  mret (select chirp_columns r).

(** The table of [format_df_for_chirp]: the rows with their [Location]
    label, which starts at 1. *)
Definition format_df_for_chirp (df : list Repeater) : result (list (nat * row)) :=
  let df := filter (λ r, isin (cell r "Mode") chirp_modes) (to_row <$> df) in
  rows ← mapM chirp_row df;
  mret (zip (seq 1 (length rows)) rows).

(** ** The Dual-Mode exporter: [format_df_for_d878] *)

Definition d878_modes : list string := ["FM"; "NBFM"; "DMR"; "Fusion"].

(** The characters the numeral reader of pandas passes over around a
    numeral: blank and the controls 9 to 13. *)
Definition is_blank (c : ascii) : bool :=
  let n := nat_of_ascii c in
  (n =? 32)%nat || ((9 <=? n)%nat && (n <=? 13)%nat).

Fixpoint skip_blanks (s : string) : string :=
  match s with
  | EmptyString => EmptyString
  | String c s' => if is_blank c then skip_blanks s' else s
  end.

Definition lower (c : ascii) : ascii :=
  let n := nat_of_ascii c in
  if (65 <=? n)%nat && (n <=? 90)%nat then ascii_of_nat (n + 32) else c.

Fixpoint lowercase (s : string) : string :=
  match s with
  | EmptyString => EmptyString
  | String c s' => String (lower c) (lowercase s')
  end.

(** An optional sign: whether it is [-], and the rest. *)
Definition read_sign (s : string) : bool * string :=
  match s with
  | String "-" s' => (true, s')
  | String "+" s' => (false, s')
  | _ => (false, s)
  end.

(** The exponent part [e], sign, digits, when the digits are there; with no
    digit after it the [e] is left unread. *)
Definition read_exponent (s : string) : Z * string :=
  match s with
  | String c s' =>
      if Ascii.eqb (lower c) "e" then
        let '(negative, s'') := read_sign s' in
        let '(digits, rest) := span is_digit s'' in
        if String.eqb digits "" then (0%Z, s)
        else
          let n := Z.of_N (digits_val 0 digits) in
          ((if negative then - n else n)%Z, rest)
      else (0%Z, s)
  | EmptyString => (0%Z, s)
  end.

(** [m * 10^e], exactly *)
Definition scale10 (m e : Z) : Q :=
  Qred (if (0 <=? e)%Z then inject_Z (m * 10 ^ e)
        else m # Z.to_pos (10 ^ (- e))).

(** A numeral as the reader of [pd.to_numeric] takes it: blanks, a sign,
    digits with an optional point, at least one digit, an optional
    exponent, blanks; nothing may be left over.  Numbers are exact: the
    range of the binary format is not modelled. *)
Definition parse_numeral (s : string) : option Q :=
  let '(negative, s) := read_sign (skip_blanks s) in
  let '(ip, s) := span is_digit s in
  let '(fp, s) :=
    match s with
    | String "." s' => span is_digit s'
    | _ => (EmptyString, s)
    end in
  if String.eqb (ip +:+ fp) "" then None else
  let '(e, s) := read_exponent s in
  if String.eqb (skip_blanks s) "" then
    let m := Z.of_N (digits_val 0 (ip +:+ fp)) in
    Some (scale10 (if negative then - m else m)
                  (e - Z.of_nat (String.length fp)))
  else None.

(** The words [pd.to_numeric] reads as floats, in any case: not a number
    and the two infinities. *)
Definition special_float (s : string) : option value :=
  let w := lowercase s in
  if existsb (String.eqb w) ["nan"; "+nan"; "-nan"] then Some VNone
  else if existsb (String.eqb w) ["inf"; "+inf"; "infinity"; "+infinity"]
  then Some (VInf false)
  else if existsb (String.eqb w) ["-inf"; "-infinity"] then Some (VInf true)
  else None.

(** [pd.to_numeric] on a cell, with its default [errors="raise"].  A plain
    decimal numeral is a number; so are the other spellings the reader
    takes (an exponent, blanks around the numeral).  The empty string is a
    missing number, [nan] and [inf] are read by name.  Every other string
    raises. *)
Definition to_numeric (v : value) : result value :=
  match v with
  | VStr s =>
      match parse_decimal s with
      | Some q => Ok (VFloat q)
      | None =>
          if String.eqb s "" then Ok VNone else
          match parse_numeral s with
          | Some q => Ok (VFloat q)
          | None =>
              match special_float s with
              | Some v => Ok v
              | None => Raise ValueError
              end
          end
      end
  | VList _ => Raise TypeError
  | _ => Ok v
  end.

(** [df[numeric_columns] = df[numeric_columns].apply(pd.to_numeric)] *)
Definition numeric_row (r : row) : result row :=
  output ← to_numeric (cell r "Output (MHz)");
  offset ← to_numeric (cell r "Offset (MHz)");
  mret (<["Offset (MHz)" := offset]> (<["Output (MHz)" := output]> r)).

(** [series > q] and [series < q]: false on a missing cell *)
Definition num_gt (v : value) (q : Q) : bool :=
  match v with
  | VFloat x => Qltb q x
  | VInt z => Qltb q (inject_Z z)
  | VInf negative => negb negative
  | _ => false
  end.

Definition num_lt (v : value) (q : Q) : bool :=
  match v with
  | VFloat x => Qltb x q
  | VInt z => Qltb (inject_Z z) q
  | VInf negative => negative
  | _ => false
  end.

(** [a + b] on numeric columns *)
Definition num_add (a b : value) : value :=
  match a, b with
  | VFloat x, VFloat y => VFloat (Qred (x + y))
  | VFloat x, VInt z => VFloat (Qred (x + inject_Z z))
  | VInt z, VFloat y => VFloat (Qred (inject_Z z + y))
  | VInt x, VInt y => VInt (x + y)
  | VInf a, VInf b => if Bool.eqb a b then VInf a else VNone
  | VInf a, (VFloat _ | VInt _) => VInf a
  | (VFloat _ | VInt _), VInf b => VInf b
  | _, _ => VNone
  end.

(** [df.round(d)] on a cell: numeric cells are rounded, the others kept *)
Definition round_cell (d : nat) (v : value) : value :=
  match v with
  | VFloat q => VFloat (round_to d q)
  | _ => v
  end.

(** One attempt of the pattern
    [CC(?P<color>\d+)\/TS(?P<slot>[12]) (?P<contact>\S+) TG\/(?P<id>\d+)]
    at the start of [s].  Each repetition is followed by a character outside
    its class, so the longest run is the only candidate. *)
Definition match_dmr_at (s : string) : option (string * string * string * string) :=
  s ← strip_prefix "CC" s;
  let '(color, s) := span is_digit s in
  if String.eqb color "" then None else
  s ← strip_prefix "/TS" s;
  match s with
  | String c s =>
      if Ascii.eqb c "1" || Ascii.eqb c "2" then
        s ← strip_prefix " " s;
        let '(contact, s) := span (λ c, negb (is_space c)) s in
        if String.eqb contact "" then None else
        s ← strip_prefix " TG/" s;
        let '(id, _) := span is_digit s in
        if String.eqb id "" then None else
        Some (color, String c "", contact, id)
      else None
  | EmptyString => None
  end.

(** The first match of the pattern anywhere in [s], as [re.search] finds it. *)
Fixpoint search_dmr (s : string) : option (string * string * string * string) :=
  match match_dmr_at s with
  | Some m => Some m
  | None =>
      match s with
      | EmptyString => None
      | String _ s' => search_dmr s'
      end
  end.

(** [series.str.extract(pattern)], for one cell: the named groups of the
    first match, all missing when there is no match. *)
Definition str_extract_dmr (v : value) : row :=
  match v with
  | VStr s =>
      match search_dmr s with
      | Some (color, slot, contact, id) =>
          <["color" := VStr color]> (<["slot" := VStr slot]>
          (<["contact" := VStr contact]> (<["id" := VStr id]> ∅)))
      | None => ∅
      end
  | _ => ∅
  end.

Definition in_2m (r : row) : bool :=
  num_gt (cell r "Output (MHz)") 144 && num_lt (cell r "Output (MHz)") 148.

Definition in_70cm (r : row) : bool :=
  num_gt (cell r "Output (MHz)") 430 && num_lt (cell r "Output (MHz)") 450.

(** The statements that fill [df_878] from [df], for one row [r] of [df],
    in the order of the source. *)
Definition d878_row (r : row) : result row :=
  let o : row := ∅ in
  let o := <["Channel Name" := cell r "Callsign"]> o in
  let o := <["Receive Frequency" := cell r "Output (MHz)"]> o in
  let o := <["Transmit Frequency" :=
               num_add (cell r "Output (MHz)") (cell r "Offset (MHz)")]> o in
  let o := round_cell 3 <$> o in
  let is_dmr := eq_str (cell r "Mode") "DMR" in
  let o := loc_set is_dmr "Channel Type" (VStr "D-Digital") o in
  let o := loc_set (negb is_dmr) "Channel Type" (VStr "A-Analog") o in
  let o := loc_set is_dmr "DMR MODE" (VStr "1") o in
  let o := loc_set (negb is_dmr) "DMR MODE" (VStr "0") o in
  let is_widefm := isin (cell r "Mode") ["FM"; "Fusion"] in
  let o := loc_set is_widefm "Band Width" (VStr "25K") o in
  let o := loc_set (negb is_widefm) "Band Width" (VStr "12.5K") o in
  is_dcs ← mask (str_startswith "D" (cell r "Tone (Hz)"));
  let o := loc_set is_dcs "CTCSS/DCS Encode"
             (str_add (str_add (VStr "D") (str_slice 1 4 (cell r "Tone (Hz)")))
                      (VStr "N")) o in
  let o := loc_set (negb is_dcs) "CTCSS/DCS Encode" (cell r "Tone (Hz)") o in
  let o := loc_set is_dmr "CTCSS/DCS Encode" VNone o in
  let dmr_codes := if is_dmr then str_extract_dmr (cell r "Tone (Hz)") else ∅ in
  let o := loc_set is_dmr "Contact" (cell dmr_codes "contact") o in
  let o := loc_set is_dmr "Contact TG/DMR ID" (cell dmr_codes "id") o in
  let o := <["Color Code" := VInt 1]> o in
  let o := loc_set is_dmr "Color Code" (cell dmr_codes "color") o in
  let o := loc_set is_dmr "Slot" (cell dmr_codes "slot") o in
  let o := <["Scan List" := VStr "Roundabout"]> o in
  mret o.

(** The table of [format_df_for_d878]: the rows with their [No.] label. *)
Definition format_df_for_d878 (df : list Repeater) : result (list (nat * row)) :=
  let df := filter (λ r, isin (cell r "Mode") d878_modes) (to_row <$> df) in
  df ← mapM numeric_row df;
  let df_2m := filter (λ r : row, in_2m r) df in
  let df_70cm := filter (λ r : row, in_70cm r) df in
  let df := (df_2m ++ df_70cm)%list in
  rows ← mapM d878_row df;
  mret (zip (seq 1 (length rows)) rows).

(** ** The map pins: [write_map_md] *)

Definition point : Type := Q * Q.

(** Squared Euclidean distance; distances are only compared, so the square
    root of [pdist] is left out. *)
Definition dist2 (p q : point) : Q :=
  (fst p - fst q) * (fst p - fst q) + (snd p - snd q) * (snd p - snd q).

Definition Qleb (x y : Q) : bool := negb (Qltb y x).

Definition qmax (x y : Q) : Q := if Qltb x y then y else x.

(** A cluster under construction: the positions of its members. *)
Definition cluster : Type := list nat.

#[export] Instance point_inhabited : Inhabited point := populate (0%Q, 0%Q).

(** Complete linkage: the distance of two clusters is the largest distance
    between a member of one and a member of the other. *)
Definition linkage_dist (pts : list point) (a b : cluster) : Q :=
  foldr qmax 0%Q
    (i ← a; j ← b; [dist2 (pts !!! i) (pts !!! j)]).

(** The pairs of positions [i < j < n], in lexicographic order. *)
Definition pairs (n : nat) : list (nat * nat) :=
  i ← seq 0 n; j ← seq (S i) (n - S i); [(i, j)].

(** The closest pair of clusters, the first one among equals. *)
Definition best_pair (pts : list point) (cs : list cluster)
  : option (nat * nat * Q) :=
  foldl
    (λ best '(i, j),
       let d := linkage_dist pts (cs !!! i) (cs !!! j) in
       match best with
       | Some (_, _, d') => if Qltb d d' then Some (i, j, d) else best
       | None => Some (i, j, d)
       end)
    None (pairs (length cs)).

Definition merge_clusters (i j : nat) (cs : list cluster) : list cluster :=
  delete j (<[i := ((cs !!! i) ++ (cs !!! j))%list]> cs).

(** Merges the closest pair of clusters while its distance is within the
    threshold [t2] (squared). *)
Fixpoint agglomerate (fuel : nat) (pts : list point) (t2 : Q)
    (cs : list cluster) : list cluster :=
  match fuel with
  | O => cs
  | S fuel' =>
      match best_pair pts cs with
      | Some (i, j, d) =>
          if Qleb d t2
          then agglomerate fuel' pts t2 (merge_clusters i j cs)
          else cs
      | None => cs
      end
  end.

(** Modelled from the spec: [fcluster(linkage(pdist(coords), "complete"),
    threshold, "distance")], which is scipy's and not in the source.  The
    spec has complete-linkage clustering over the pairwise Euclidean
    distances, cut at the threshold; complete linkage merges at growing
    distances, so the cut is the state of the merging when the closest pair
    is farther apart than the threshold.  The result gives each record, by
    position, the number of its cluster; only the partition matters to the
    caller, which uses the numbers as dictionary keys.  scipy refuses fewer
    than two observations. *)
Definition fcluster_complete (coords : list point) (threshold : Q)
  : result (list nat) :=
  let n := length coords in
  if (n <? 2)%nat then Raise ValueError else
  let cs :=
    if Qltb threshold 0 then (λ i, [i]) <$> seq 0 n
    else agglomerate n coords (threshold * threshold)
                     ((λ i, [i]) <$> seq 0 n) in
  mret ((λ i, default 0%nat
               (fst <$> list_find (λ c : cluster, i ∈ c) cs) + 1)%nat
        <$> seq 0 n).

(** [clusters[allocation].append(record)] on the insertion-ordered
    dictionary [clusters] *)
Fixpoint dict_append {A : Type} (k : nat) (a : A) (d : list (nat * list A))
  : list (nat * list A) :=
  match d with
  | [] => [(k, [a])]
  | (k', l) :: d' =>
      if (k =? k')%nat then (k', (l ++ [a])%list) :: d'
      else (k', l) :: dict_append k a d'
  end.

Definition newline : string := String "010" "".

Definition Qmean (l : list Q) : Q :=
  Qred (foldr Qplus 0%Q l / inject_Z (Z.of_nat (length l))).

(** The pin of one cluster, when its message is not empty. *)
Definition pin (members : list (string * string * point)) : option string :=
  let msg :=
    foldl (λ msg '(callsign, output, _), msg +:+ callsign +:+ " " +:+ output +:+ "<br>")
          "" members in
  if (0 <? String.length msg)%nat then
    let lat := Qmean ((λ m, fst (snd m)) <$> members) in
    let lon := Qmean ((λ m, snd (snd m)) <$> members) in
    let coords := "[" +:+ format_f 10 lat +:+ ", " +:+ format_f 10 lon +:+ "]" in
    Some ("L.marker(" +:+ coords +:+ ").bindPopup('" +:+ msg +:+ "').addTo(map);")
  else None.

(** [np.array(df["Coordinates"].to_list())]: a rectangular array only when
    every record has its pair. *)
Definition coords_array (df : list Repeater) : result (list point) :=
  mapM (λ r, match Coordinates r with
             | Some p => Ok p
             | None => Raise ValueError
             end) df.

(** The pins of [write_map_md], one per cluster in the order the clusters
    are first met. *)
Definition map_pins (df : list Repeater) (threshold : Q) : result (list string) :=
  coords ← coords_array df;
  allocations ← fcluster_complete coords threshold;
  let clusters :=
    foldl (λ clusters '(allocation, (r, p)),
             dict_append allocation (Callsign r, Output_MHz r, p) clusters)
          [] (zip allocations (zip df coords)) in
  mret (omap (λ c, pin (snd c)) clusters).

(** [sep.join(l)] *)
Fixpoint join (sep : string) (l : list string) : string :=
  match l with
  | [] => ""
  | [x] => x
  | x :: l' => x +:+ sep +:+ join sep l'
  end.

(** The text [write_map_md] puts in place of [{{ repeater_pins }}]. *)
Definition write_map_md (df : list Repeater) (threshold : Q) : result string :=
  pins ← map_pins df threshold;
  mret (join newline pins).

Definition default_threshold : Q := 3 # 100.

(** ** Candidate records: [repeater_from_args], [repeater_from_repeaterbook] *)

(** The namespace [parse_args] returns.  The text arguments are strings or
    [None]; [lat] and [lon] are floats from the command line and strings
    from the prompts; [mode] always has a string. *)
Record Args : Type := mkArgs {
  args_name : option string;
  args_loc : option string;
  args_id : option string;
  args_call : option string;
  args_freq : option string;
  args_offset : option string;
  args_tone : option string;
  args_mode : string;
  args_lat : value;
  args_lon : value;
  args_long_name : option string;
  args_url : option string;
  args_regen : bool
}.

Definition of_option (o : option string) : value :=
  match o with
  | Some s => VStr s
  | None => VNone
  end.

(** The dictionary [repeater_from_args] first builds: every field, empty
    or not. *)
Definition repeater_fields (args : Args) : gmap string value :=
  list_to_map
    [("Group Name", of_option (args_name args));
     ("Callsign", of_option (args_call args));
     ("Location", of_option (args_loc args));
     ("Mode", VStr (args_mode args));
     ("Output (MHz)", of_option (args_freq args));
     ("Offset (MHz)", of_option (args_offset args));
     ("Tone (Hz)", of_option (args_tone args));
     ("Coordinates",
       if truthy (args_lat args) && truthy (args_lon args)
       then VList [args_lat args; args_lon args] else VNone);
     ("Long Name", of_option (args_long_name args));
     ("Website", of_option (args_url args))].

(** [{key: val for key, val in repeater.items() if val}] *)
Definition repeater_from_args (args : Args) : gmap string value :=
  filter (λ kv, truthy kv.2) (repeater_fields args).

(** What [eval] makes of a string. *)
Inductive eval_result : Type :=
  | Evaluated (v : value)
  | EvalSyntaxError
  | EvalRaise (e : exn).

Section Acquisition.

(** The body the lookup service answers with for a URL, and Python's
    [eval]; both are outside the source. *)
Variable http_get : string → string.
Variable py_eval : string → eval_result.

Definition repeater_from_repeaterbook (id_code : option string)
  : result (gmap string value) :=
  match id_code with
  | None => mret ∅
  | Some id_code =>
      let url :=
        "https://www.repeaterbook.com/repeaters/details.php?state_id=53&ID="
        +:+ id_code in
      let text := http_get url in
      s ← index (split "msResult.php?call=" text) 1;
      call ← index (split "&" s) 0;
      s ← index (split ("Downlink:</td>" +:+ newline +:+ "<td>") text) 1;
      freq ← index (split "</td>" s) 0;
      freq ← py_float freq;
      let freq := format_f 4 freq in
      let freq :=
        if bool_decide (str_last freq = Some "0"%char)
        then str_drop_last freq else freq in
      s ← index (split ("Offset:</td>" +:+ newline +:+ "<td>" +:+ newline) text) 1;
      offset ← index (split " MHz" s) 0;
      offset ← py_float offset;
      let offset := format_f 1 offset in
      let offset :=
        if bool_decide (String.get 0 offset = Some "-"%char)
        then offset else "+" +:+ offset in
      s ← index (split "center: " text) 1;
      latlong ← index (split newline s) 0;
      let latlong := str_drop_last latlong in
      let tone :=
        match
          s ← index (split ("Uplink Tone:</td>" +:+ newline +:+ "<td>") text) 1;
          index (split "</td" s) 0
        with
        | Ok tone => tone
        | Raise _ => ""
        end in
      latlong ←
        match py_eval latlong with
        | Evaluated v => Ok v
        | EvalSyntaxError => Ok (VStr latlong)
        | EvalRaise e => Raise e
        end;
      mret (<["Callsign" := VStr call]>
           (<["Output (MHz)" := VStr freq]>
           (<["Offset (MHz)" := VStr offset]>
           (<["Tone (Hz)" := VStr tone]>
           (<["Coordinates" := latlong]> ∅)))))
  end.

(** [{**repeaterbook, **repeaterargs}] *)
Definition dict_merge (base override : gmap string value) : gmap string value :=
  override ∪ base.

(** The record [generate_repeater_df] appends to the registry. *)
Definition new_repeater (args : Args) : result (gmap string value) :=
  repeaterbook ← repeater_from_repeaterbook (args_id args);
  let repeaterargs := repeater_from_args args in
  mret (dict_merge repeaterbook repeaterargs).

End Acquisition.

(** ** Vocabulary of the statements *)

(** The record's mode is one of [modes]. *)
Definition has_mode (modes : list string) (r : Repeater) : bool :=
  existsb (String.eqb (Mode r)) modes.

(** The records [format_df_for_chirp] keeps, in registry order. *)
Definition chirp_kept (df : list Repeater) : list Repeater :=
  filter (λ r, has_mode chirp_modes r) df.

(** The records that pass the mode filter of [format_df_for_d878]. *)
Definition d878_kept (df : list Repeater) : list Repeater :=
  filter (λ r, has_mode d878_modes r) df.

(** The output frequency reads as a number strictly between [lo] and [hi]. *)
Definition in_band (lo hi : Q) (r : Repeater) : bool :=
  match parse_decimal (Output_MHz r) with
  | Some q => Qltb lo q && Qltb q hi
  | None => false
  end.

(** The 2m records, then the 70cm records, each in registry order. *)
Definition d878_selected (df : list Repeater) : list Repeater :=
  (filter (λ r, in_band 144 148 r) (d878_kept df)
   ++ filter (λ r, in_band 430 450 r) (d878_kept df))%list.

(** Both numeric columns of the record read as numbers. *)
Definition numeric (r : Repeater) : Prop :=
  is_Some (parse_decimal (Output_MHz r)) ∧ is_Some (parse_decimal (Offset_MHz r)).

(** The tone is DMR-shaped: the pattern of the Dual-Mode exporter matches
    somewhere in it. *)
Definition dmr_shaped (tone : string) : bool :=
  match search_dmr tone with Some _ => true | None => false end.

(** The cluster numbers of [allocations], each once, in the order they are
    first met. *)
Definition first_seen (allocations : list nat) : list nat :=
  foldl (λ seen a, if bool_decide (a ∈ seen) then seen else (seen ++ [a])%list)
        [] allocations.

(** The dictionary the loop of [write_map_md] over the allocations builds
    from the pairs of a cluster number and an item. *)
Definition grouped {A : Type} (items : list (nat * A)) : list (nat * list A) :=
  foldl (λ d x, dict_append (fst x) (snd x) d) [] items.

(** The items of [items] under the key [c], in their order. *)
Definition under {A : Type} (c : nat) (items : list (nat * A)) : list A :=
  snd <$> filter (λ x, fst x = c) items.

(** The members of cluster [c]: the entries of [l] allocated to it, in
    registry order. *)
Definition members {A : Type} (c : nat) (allocations : list nat) (l : list A)
  : list A :=
  under c (zip allocations l).

(** The label of a pin: callsign and frequency of every member, each
    followed by a line break. *)
Fixpoint label (ms : list Repeater) : string :=
  match ms with
  | [] => ""
  | r :: ms' => Callsign r +:+ " " +:+ Output_MHz r +:+ "<br>" +:+ label ms'
  end.

(** The marker statement for a placement and a label. *)
Definition marker (lat lon : Q) (msg : string) : string :=
  "L.marker([" +:+ format_f 10 lat +:+ ", " +:+ format_f 10 lon
  +:+ "]).bindPopup('" +:+ msg +:+ "').addTo(map);".

(** The pin of a cluster with the members [ms], each a record with its
    coordinates: placed at the mean latitude and the mean longitude,
    labelled with every member. *)
Definition cluster_pin (ms : list (Repeater * point)) : string :=
  marker (Qmean ((λ m, fst (snd m)) <$> ms)) (Qmean ((λ m, snd (snd m)) <$> ms))
         (label (fst <$> ms)).

(** The mode column of a kept row after the two rewrites of the Generic-FM
    exporter. *)
Definition chirp_mode (m : string) : string :=
  if String.eqb m "NBFM" then "NFM"
  else if String.eqb m "Fusion" then "FM" else m.

(** The offset past its first character reads as a number: what
    [format_df_for_chirp] needs of a kept record to format it. *)
Definition offset_numeric (r : Repeater) : Prop :=
  is_Some (parse_decimal (str_from 1 (Offset_MHz r))).

(** The labelled table of a list of rows: labels count from 1. *)
Definition numbered (os : list row) : list (nat * row) :=
  zip (seq 1 (length os)) os.

(** The row of a record after [pd.to_numeric] on its two numeric columns,
    when both read as numbers. *)
Definition numeric_of (r : Repeater) : row :=
  match parse_decimal (Output_MHz r), parse_decimal (Offset_MHz r) with
  | Some output, Some offset =>
      <["Offset (MHz)" := VFloat offset]>
        (<["Output (MHz)" := VFloat output]> (to_row r))
  | _, _ => to_row r
  end.

(** A named group of the DMR pattern in a tone, missing when the pattern
    does not match. *)
Definition dmr_capture (name : string) (tone : string) : value :=
  cell (str_extract_dmr (VStr tone)) name.

(** ** Sample registry rows *)

Definition w1abc : Repeater :=
  mkRepeater "W1ABC" "FM" "146.940" "-0.6" "146.2" (Some (42, -(71))%Q).

Definition k7dcs : Repeater :=
  mkRepeater "K7DCS" "NBFM" "442.100" "+5.0" "D023N" (Some (4201 # 100, -(71))%Q).

Definition k7dmr : Repeater :=
  mkRepeater "K7DMR" "DMR" "441.1125" "+5.0" "CC2/TS1 BEARS1 TG/312488"
             (Some (4205 # 100, -(71))%Q).

(** A DMR record whose tone is not DMR-shaped. *)
Definition k7bad : Repeater :=
  mkRepeater "K7BAD" "DMR" "145.1125" "+0.6" "D023N" None.

(** An FM record whose output frequency is no number. *)
Definition k7odd : Repeater :=
  mkRepeater "K7ODD" "FM" "n/a" "+0.6" "100.0" None.

(** [pd.to_numeric] rejects the string: it raises on it. *)
Definition rejected (s : string) : Prop :=
  to_numeric (VStr s) = Raise ValueError.

(** ** A sample lookup *)

(** A page of the lookup service that shows no uplink tone. *)
Definition sample_page : string :=
  "<a href='msResult.php?call=W7ABC&x=1'>W7ABC</a>" +:+ newline
  +:+ "<td>Downlink:</td>" +:+ newline +:+ "<td>146.9400</td>" +:+ newline
  +:+ "<td>Offset:</td>" +:+ newline +:+ "<td>" +:+ newline
  +:+ "-0.600 MHz</td>" +:+ newline
  +:+ "center: [47.5, -122.25]," +:+ newline +:+ "zoom: 9".

(** [eval] on the coordinates of the sample page; any other string is
    taken to be no expression. *)
Definition sample_eval (s : string) : eval_result :=
  if String.eqb s "[47.5, -122.25]"
  then Evaluated (VList [VFloat (95 # 2); VFloat (-(489 # 4))])
  else EvalSyntaxError.

(** Arguments that give a group name and a lookup key, the mode left at its
    default, and an empty website. *)
Definition sample_args : Args :=
  mkArgs (Some "PSRG") None (Some "42") None None None None "FM"
         VNone VNone None (Some "") false.

(** * Properties *)

(** ** Running a fallible step over a frame *)

Section mapM_result.
Context {A B : Type} (f : A → result B).

Lemma mapM_result_cons x l :
  mapM f (x :: l) =
  match f x with
  | Ok y =>
      match mapM f l with
      | Ok k => Ok (y :: k)
      | Raise e => Raise e
      end
  | Raise e => Raise e
  end.
Proof. reflexivity. Qed.

Lemma mapM_Ok_1 l k : mapM f l = Ok k → Forall2 (λ x y, f x = Ok y) l k.
Proof.
  revert k. induction l as [|x l IH]; intros k.
  - intros [= <-]. constructor.
  - rewrite mapM_result_cons.
    destruct (f x) as [y|] eqn:Hx; [|discriminate].
    destruct (mapM f l) as [k'|]; [|discriminate].
    intros [= <-]. constructor; auto.
Qed.

Lemma mapM_Ok_2 l k : Forall2 (λ x y, f x = Ok y) l k → mapM f l = Ok k.
Proof.
  induction 1 as [|x y l k Hx _ IH]; [done|].
  by rewrite mapM_result_cons, Hx, IH.
Qed.

Lemma mapM_Ok l k : mapM f l = Ok k ↔ Forall2 (λ x y, f x = Ok y) l k.
Proof. split; auto using mapM_Ok_1, mapM_Ok_2. Qed.

Lemma mapM_Ok_fmap (g : A → B) l :
  Forall (λ x, f x = Ok (g x)) l → mapM f l = Ok (g <$> l).
Proof.
  intros H. apply mapM_Ok_2. induction H; constructor; auto.
Qed.

(** When every failure is the exception [e], one failing element makes the
    run fail with [e]. *)
Lemma mapM_Raise e l :
  Forall (λ x, f x = Raise e ∨ ∃ y, f x = Ok y) l →
  Exists (λ x, f x = Raise e) l →
  mapM f l = Raise e.
Proof.
  induction 1 as [|x l Hx _ IH]; intros Hex; [by inversion Hex|].
  rewrite mapM_result_cons.
  destruct Hx as [->|[y Hy]]; [done|]. rewrite Hy.
  inversion Hex as [? ? Hx|? ? Hl]; subst; [congruence|].
  by rewrite IH.
Qed.
End mapM_result.

(** ** Reading cells *)

Lemma cell_empty c : cell ∅ c = VNone.
Proof. done. Qed.

Lemma cell_insert (r : row) c c' v :
  cell (<[c := v]> r) c' = if String.eqb c c' then v else cell r c'.
Proof.
  unfold cell. destruct (String.eqb_spec c c') as [->|].
  - by rewrite lookup_insert_eq.
  - by rewrite lookup_insert_ne.
Qed.

Lemma cell_delete (r : row) c c' :
  cell (delete c r) c' = if String.eqb c c' then VNone else cell r c'.
Proof.
  unfold cell. destruct (String.eqb_spec c c') as [->|].
  - by rewrite lookup_delete_eq.
  - by rewrite lookup_delete_ne.
Qed.

Lemma cell_loc_set b (r : row) c c' v :
  cell (loc_set b c v r) c' =
  if String.eqb c c' then (if b then v else cell r c') else cell r c'.
Proof.
  destruct b; simpl; [apply cell_insert | by destruct (String.eqb c c')].
Qed.

Lemma cell_rename_col (r : row) old new c' :
  cell (rename_col old new r) c' =
  if String.eqb new c' then cell r old
  else if String.eqb old c' then VNone else cell r c'.
Proof.
  unfold rename_col, cell. destruct (String.eqb_spec new c') as [->|].
  - by rewrite lookup_partial_alter_eq.
  - rewrite lookup_partial_alter_ne by done.
    destruct (String.eqb_spec old c') as [->|].
    + by rewrite lookup_delete_eq.
    + by rewrite lookup_delete_ne.
Qed.

Lemma cell_select cols (r : row) c :
  cell (select cols r) c =
  if existsb (String.eqb c) cols then cell r c else VNone.
Proof.
  unfold select, cell. rewrite map_lookup_filter.
  destruct (r !! c) as [v|] eqn:E; simpl; [|by destruct (existsb _ _)].
  case_guard as Hg; simpl in *.
  - destruct (existsb _ _) eqn:Ex; [done|].
    apply list_elem_of_In in Hg.
    assert (existsb (String.eqb c) cols = true); [|congruence].
    apply existsb_exists. exists c. split; [done|apply String.eqb_refl].
  - destruct (existsb _ _) eqn:Ex; [|done].
    exfalso. apply Hg. apply existsb_exists in Ex as (x & Hin & Hx).
    apply String.eqb_eq in Hx as ->. by apply list_elem_of_In.
Qed.

Lemma cell_round d (r : row) c :
  cell (round_cell d <$> r) c = round_cell d (cell r c).
Proof. unfold cell. rewrite lookup_fmap. by destruct (r !! c). Qed.

Lemma cell_to_row r c :
  cell (to_row r) c =
  if String.eqb "Coordinates" c then
    match Coordinates r with
    | Some (lat, lon) => VList [VFloat lat; VFloat lon]
    | None => VNone
    end
  else if String.eqb "Callsign" c then VStr (Callsign r)
  else if String.eqb "Mode" c then VStr (Mode r)
  else if String.eqb "Output (MHz)" c then VStr (Output_MHz r)
  else if String.eqb "Offset (MHz)" c then VStr (Offset_MHz r)
  else if String.eqb "Tone (Hz)" c then VStr (Tone_Hz r)
  else VNone.
Proof.
  unfold to_row.
  destruct (Coordinates r) as [[lat lon]|]; rewrite !cell_insert, ?cell_empty.
  - done.
  - by destruct (String.eqb_spec "Coordinates" c) as [<-|].
Qed.

(** Reads the cells of a row built by the column statements: a lookup is
    pushed through the outermost statement first, so that the statements on
    other columns are dropped unread. *)
Ltac cell_step :=
  match goal with
  | |- context [cell (select ?cols ?r) ?c] => rewrite (cell_select cols r c)
  | |- context [cell (<[?c := ?v]> ?r) ?c'] => rewrite (cell_insert r c c' v)
  | |- context [cell (loc_set ?b ?c ?v ?r) ?c'] =>
      rewrite (cell_loc_set b r c c' v)
  | |- context [cell (rename_col ?old ?new ?r) ?c'] =>
      rewrite (cell_rename_col r old new c')
  | |- context [cell (delete ?c ?r) ?c'] => rewrite (cell_delete r c c')
  | |- context [cell (round_cell ?d <$> ?r) ?c] => rewrite (cell_round d r c)
  | |- context [cell (to_row ?r) ?c] => rewrite (cell_to_row r c)
  | |- context [cell ∅ ?c] => rewrite (cell_empty c)
  end;
  cbn [String.eqb Ascii.eqb Bool.eqb andb orb negb existsb chirp_columns].

Ltac cells :=
  repeat first
    [ cell_step
    | progress cbn [String.eqb Ascii.eqb Bool.eqb andb orb negb existsb
                    eq_str isin str_get str_slice_from
                    str_slice str_startswith str_add mask format_offset
                    to_numeric mbind mret result_bind result_ret foldl
                    round_cell Nat.sub] ].

(** ** The rows of the Generic-FM exporter *)

Lemma isin_to_row modes r :
  isin (cell (to_row r) "Mode") modes = has_mode modes r.
Proof. by rewrite cell_to_row. Qed.

Lemma filter_to_row modes (df : list Repeater) :
  filter (λ r : row, isin (cell r "Mode") modes) (to_row <$> df)
  = to_row <$> filter (λ r, has_mode modes r) df.
Proof.
  induction df as [|r df IH]; [done|].
  rewrite fmap_cons, !filter_cons, isin_to_row.
  destruct (decide (has_mode modes r)); by rewrite IH.
Qed.

(** What the statements make of one registry row: the row exists exactly
    when the offset past its first character is a number, and its cells
    are as listed. *)
Ltac case_if :=
  match goal with
  | |- context [if ?b then _ else _] => destruct b eqn:?
  end.

Lemma chirp_row_cells r q :
  parse_decimal (str_from 1 (Offset_MHz r)) = Some q →
  ∃ o, chirp_row (to_row r) = Ok o
    ∧ cell o "Duplex" = str_get 0 (VStr (Offset_MHz r))
    ∧ cell o "Offset" = VStr (format_f 6 q)
    ∧ cell o "Tone" =
        VStr (if String.prefix "D" (Tone_Hz r) then "DTCS" else "Tone")
    ∧ cell o "rToneFreq" =
        VStr (if String.prefix "D" (Tone_Hz r) then "88.5" else Tone_Hz r)
    ∧ cell o "cToneFreq" = VStr "88.5"
    ∧ cell o "DtcsCode" =
        VStr (if String.prefix "D" (Tone_Hz r)
              then substring 1 3 (Tone_Hz r) else "023")
    ∧ cell o "DtcsPolarity" = VStr "NN"
    ∧ cell o "TStep" = VStr "5.00"
    ∧ cell o "Mode" = VStr (chirp_mode (Mode r))
    ∧ cell o "Name" = VStr (Callsign r)
    ∧ cell o "Frequency" = VStr (Output_MHz r)
    ∧ cell o "Comment" = VStr ((Callsign r +:+ " - ") +:+ Output_MHz r).
Proof.
  intros Hq. unfold chirp_row. cells.
  unfold py_float. rewrite Hq. cells.
  eexists. split; [reflexivity|].
  unfold chirp_mode.
  repeat split; cells; repeat (case_if; cells); simpl in *; congruence.
Qed.

(** ** Row labels *)

Lemma zip_seq_lookup (l : list row) k i :
  zip (seq k (length l)) l !! i = (λ o, ((k + i)%nat, o)) <$> l !! i.
Proof.
  revert k i. induction l as [|o l IH]; intros k j; [done|].
  destruct j as [|j]; simpl.
  - by rewrite Nat.add_0_r.
  - rewrite IH. by replace (S k + j)%nat with (k + S j)%nat by lia.
Qed.

Lemma numbered_lookup os i :
  numbered os !! i = (λ o, (S i, o)) <$> os !! i.
Proof. unfold numbered. by rewrite zip_seq_lookup. Qed.

Lemma numbered_length os : length (numbered os) = length os.
Proof. unfold numbered. rewrite length_zip, length_seq. lia. Qed.

Lemma numbered_labels os : fst <$> numbered os = seq 1 (length os).
Proof. unfold numbered. apply fst_zip. by rewrite length_seq. Qed.

(** ** The table of the Generic-FM exporter *)

Lemma format_df_for_chirp_eq df :
  format_df_for_chirp df =
  rows ← mapM chirp_row (to_row <$> chirp_kept df); mret (numbered rows).
Proof. unfold format_df_for_chirp. by rewrite filter_to_row. Qed.

(** The exporter returns when the kept records have numeric offsets, with
    one row per kept record, in registry order. *)
Lemma format_df_for_chirp_rows df :
  Forall offset_numeric (chirp_kept df) →
  ∃ os, format_df_for_chirp df = Ok (numbered os)
      ∧ Forall2 (λ r o, chirp_row (to_row r) = Ok o) (chirp_kept df) os.
Proof.
  intros Hnum. rewrite format_df_for_chirp_eq.
  assert (∃ os, Forall2 (λ r o, chirp_row (to_row r) = Ok o) (chirp_kept df) os)
    as [os Hos].
  { induction Hnum as [|r l [q Hq] _ [os IH]]; [by exists []|].
    destruct (chirp_row_cells r q Hq) as (o & Ho & _).
    exists (o :: os). by constructor. }
  exists os. split; [|done].
  erewrite mapM_Ok_2; [done|]. by apply Forall2_fmap_l.
Qed.

(** The cells of the row of a kept record, by position. *)
Lemma chirp_rows_lookup df os i r :
  Forall2 (λ r o, chirp_row (to_row r) = Ok o) (chirp_kept df) os →
  chirp_kept df !! i = Some r →
  ∃ o, numbered os !! i = Some (S i, o) ∧ chirp_row (to_row r) = Ok o.
Proof.
  intros Hos Hr.
  destruct (Forall2_lookup_l _ _ _ _ _ Hos Hr) as (o & Ho & Hrow).
  exists o. by rewrite numbered_lookup, Ho.
Qed.

(** ** The rows of the Dual-Mode exporter *)

Lemma numeric_row_Ok r :
  numeric r → numeric_row (to_row r) = Ok (numeric_of r).
Proof.
  intros [[qo Ho] [qf Hf]]. unfold numeric_row, numeric_of. cells.
  rewrite Ho. cells. rewrite Hf. by cells.
Qed.

(** On a string, [pd.to_numeric] returns or raises [ValueError]. *)
Lemma to_numeric_str_cases s :
  to_numeric (VStr s) = Raise ValueError ∨ ∃ v, to_numeric (VStr s) = Ok v.
Proof.
  unfold to_numeric.
  destruct (parse_decimal s); [eauto|].
  destruct (String.eqb s ""); [eauto|].
  destruct (parse_numeral s); [eauto|].
  destruct (special_float s); eauto.
Qed.

Lemma numeric_row_to_row r :
  numeric_row (to_row r) =
  output ← to_numeric (VStr (Output_MHz r));
  offset ← to_numeric (VStr (Offset_MHz r));
  mret (<["Offset (MHz)" := offset]> (<["Output (MHz)" := output]> (to_row r))).
Proof. unfold numeric_row. by repeat cell_step. Qed.

Lemma numeric_row_raises r :
  rejected (Output_MHz r) ∨ rejected (Offset_MHz r) →
  numeric_row (to_row r) = Raise ValueError.
Proof.
  unfold rejected. rewrite numeric_row_to_row. intros [H|H].
  - by rewrite H.
  - rewrite H. by destruct (to_numeric_str_cases (Output_MHz r)) as [->|[v ->]].
Qed.

Lemma numeric_row_cases r :
  numeric_row (to_row r) = Raise ValueError
  ∨ ∃ o, numeric_row (to_row r) = Ok o.
Proof.
  rewrite numeric_row_to_row.
  destruct (to_numeric_str_cases (Output_MHz r)) as [->|[v ->]]; [by left|].
  destruct (to_numeric_str_cases (Offset_MHz r)) as [->|[w ->]]; [by left|].
  right. by eexists.
Qed.

Lemma cell_numeric_of r c :
  numeric r →
  cell (numeric_of r) c =
  if String.eqb "Offset (MHz)" c
  then from_option VFloat VNone (parse_decimal (Offset_MHz r))
  else if String.eqb "Output (MHz)" c
  then from_option VFloat VNone (parse_decimal (Output_MHz r))
  else cell (to_row r) c.
Proof.
  intros [[qo Ho] [qf Hf]]. unfold numeric_of. rewrite Ho, Hf.
  by rewrite !cell_insert.
Qed.

Lemma in_2m_numeric_of r :
  numeric r → in_2m (numeric_of r) = in_band 144 148 r.
Proof.
  intros Hn. unfold in_2m, in_band. rewrite cell_numeric_of by done.
  destruct Hn as [[qo Ho] _]. by rewrite Ho.
Qed.

Lemma in_70cm_numeric_of r :
  numeric r → in_70cm (numeric_of r) = in_band 430 450 r.
Proof.
  intros Hn. unfold in_70cm, in_band. rewrite cell_numeric_of by done.
  destruct Hn as [[qo Ho] _]. by rewrite Ho.
Qed.

Lemma dmr_capture_unmatched name tone :
  search_dmr tone = None → dmr_capture name tone = VNone.
Proof. intros H. unfold dmr_capture. simpl. by rewrite H. Qed.

(** What the statements make of one row of the numeric frame.  The row
    always exists: no tone makes a statement raise. *)
Lemma d878_row_cells r qo qf :
  parse_decimal (Output_MHz r) = Some qo →
  parse_decimal (Offset_MHz r) = Some qf →
  ∃ o, d878_row (numeric_of r) = Ok o
    ∧ cell o "Channel Name" = VStr (Callsign r)
    ∧ cell o "Receive Frequency" = VFloat (round_to 3 qo)
    ∧ cell o "Transmit Frequency" = VFloat (round_to 3 (Qred (qo + qf)))
    ∧ cell o "Channel Type" =
        VStr (if String.eqb (Mode r) "DMR" then "D-Digital" else "A-Analog")
    ∧ cell o "DMR MODE" = VStr (if String.eqb (Mode r) "DMR" then "1" else "0")
    ∧ cell o "Band Width" =
        VStr (if has_mode ["FM"; "Fusion"] r then "25K" else "12.5K")
    ∧ cell o "CTCSS/DCS Encode" =
        (if String.eqb (Mode r) "DMR" then VNone
         else if String.prefix "D" (Tone_Hz r)
              then VStr (("D" +:+ substring 1 3 (Tone_Hz r)) +:+ "N")
              else VStr (Tone_Hz r))
    ∧ cell o "Contact" =
        (if String.eqb (Mode r) "DMR"
         then dmr_capture "contact" (Tone_Hz r) else VNone)
    ∧ cell o "Contact TG/DMR ID" =
        (if String.eqb (Mode r) "DMR"
         then dmr_capture "id" (Tone_Hz r) else VNone)
    ∧ cell o "Color Code" =
        (if String.eqb (Mode r) "DMR"
         then dmr_capture "color" (Tone_Hz r) else VInt 1)
    ∧ cell o "Slot" =
        (if String.eqb (Mode r) "DMR"
         then dmr_capture "slot" (Tone_Hz r) else VNone)
    ∧ cell o "Scan List" = VStr "Roundabout".
Proof.
  intros Ho Hf.
  assert (Hn : numeric r) by (split; eauto).
  unfold d878_row.
  rewrite !(cell_numeric_of r) by done. rewrite Ho, Hf.
  cbn [String.eqb Ascii.eqb Bool.eqb from_option]. cells.
  eexists. split; [reflexivity|].
  unfold dmr_capture, has_mode.
  repeat split; cells; repeat (case_if; cells); simpl in *; congruence.
Qed.

(** ** The table of the Dual-Mode exporter *)

Lemma filter_band_numeric_of (band : row → bool) (lo hi : Q) (l : list Repeater) :
  (∀ r, numeric r → band (numeric_of r) = in_band lo hi r) →
  Forall numeric l →
  filter (λ r : row, band r) (numeric_of <$> l)
  = numeric_of <$> filter (λ r, in_band lo hi r) l.
Proof.
  intros Hband. induction 1 as [|r l Hr _ IH]; [done|].
  rewrite fmap_cons, !filter_cons, Hband by done.
  destruct (decide (in_band lo hi r)); by rewrite IH.
Qed.

Lemma mapM_numeric_row (l : list Repeater) :
  Forall numeric l → mapM numeric_row (to_row <$> l) = Ok (numeric_of <$> l).
Proof.
  intros H. apply mapM_Ok_2, Forall2_fmap. 
  induction H as [|r l Hr _ IH]; constructor; [by apply numeric_row_Ok|done].
Qed.

(** The exporter returns when the records that pass the mode filter have
    numeric frequency and offset, with one row per selected record: the 2m
    records, then the 70cm records. *)
Lemma format_df_for_d878_rows df :
  Forall numeric (d878_kept df) →
  ∃ os, format_df_for_d878 df = Ok (numbered os)
      ∧ Forall2 (λ r o, d878_row (numeric_of r) = Ok o) (d878_selected df) os.
Proof.
  intros Hnum. unfold format_df_for_d878.
  rewrite filter_to_row. fold (d878_kept df).
  rewrite mapM_numeric_row by done.
  cbn [mbind result_bind].
  rewrite (filter_band_numeric_of _ 144 148), (filter_band_numeric_of _ 430 450)
    by auto using in_2m_numeric_of, in_70cm_numeric_of.
  rewrite <- fmap_app. fold (d878_selected df).
  assert (Hsel : Forall numeric (d878_selected df)).
  { unfold d878_selected. apply Forall_app.
    split; apply Forall_forall; intros r [_ Hr]%list_elem_of_filter;
      by eapply Forall_forall in Hnum. }
  assert (∃ os, Forall2 (λ r o, d878_row (numeric_of r) = Ok o)
                        (d878_selected df) os) as [os Hos].
  { induction Hsel as [|r l [[qo Ho] [qf Hf]] _ [os IH]]; [by exists []|].
    destruct (d878_row_cells r qo qf Ho Hf) as (o & Hrow & _).
    exists (o :: os). by constructor. }
  exists os. split; [|done].
  erewrite mapM_Ok_2; [done|]. by apply Forall2_fmap_l.
Qed.

(** It raises when [pd.to_numeric] rejects the frequency or the offset of
    a record that passes the mode filter: the conversion is applied to the
    whole column before the band filter. *)
Lemma format_df_for_d878_raises df :
  Exists (λ r, rejected (Output_MHz r) ∨ rejected (Offset_MHz r))
         (d878_kept df) →
  format_df_for_d878 df = Raise ValueError.
Proof.
  intros Hex. unfold format_df_for_d878.
  rewrite filter_to_row. fold (d878_kept df).
  erewrite mapM_Raise; [done| |].
  - apply Forall_fmap, Forall_forall. intros r _. apply numeric_row_cases.
  - apply Exists_fmap. eapply Exists_impl; [done|]. intros r Hr. simpl.
    by apply numeric_row_raises.
Qed.

Lemma d878_rows_lookup df os i r :
  Forall2 (λ r o, d878_row (numeric_of r) = Ok o) (d878_selected df) os →
  d878_selected df !! i = Some r →
  ∃ o, numbered os !! i = Some (S i, o) ∧ d878_row (numeric_of r) = Ok o.
Proof.
  intros Hos Hr.
  destruct (Forall2_lookup_l _ _ _ _ _ Hos Hr) as (o & Ho & Hrow).
  exists o. by rewrite numbered_lookup, Ho.
Qed.

Lemma d878_selected_numeric df r :
  Forall numeric (d878_kept df) → r ∈ d878_selected df → numeric r.
Proof.
  intros Hnum Hr. unfold d878_selected in Hr.
  apply elem_of_app in Hr as [[_ Hr]%list_elem_of_filter|[_ Hr]%list_elem_of_filter];
    by eapply Forall_forall in Hnum.
Qed.

(** ** The claims on the exporters *)

(** C2.  For every record kept by the Generic-FM exporter whose offset
    begins with a sign character, the row's [Duplex] is that character
    ([+] or [-]) and its [Offset] is the number written by the remaining
    characters, formatted with six decimal digits.  The exporter returns
    its table whenever the kept records have a number after the first
    character of their offset. *)
Theorem chirp_duplex_offset (df : list Repeater) :
  Forall offset_numeric (chirp_kept df) →
  ∃ rows, format_df_for_chirp df = Ok rows
    ∧ length rows = length (chirp_kept df)
    ∧ ∀ i r c rest,
        chirp_kept df !! i = Some r →
        Offset_MHz r = String c rest →
        c = "+"%char ∨ c = "-"%char →
        ∃ o q, rows !! i = Some (S i, o)
          ∧ cell o "Duplex" = VStr (String c "")
          ∧ (cell o "Duplex" = VStr "+" ∨ cell o "Duplex" = VStr "-")
          ∧ parse_decimal rest = Some q
          ∧ cell o "Offset" = VStr (format_f 6 q).
Proof.
  intros Hnum.
  destruct (format_df_for_chirp_rows df Hnum) as (os & Hrows & Hos).
  exists (numbered os). split; [done|]. split.
  { rewrite numbered_length. symmetry. by eapply Forall2_length. }
  intros i r c rest Hr Hoff Hsign.
  destruct (chirp_rows_lookup df os i r Hos Hr) as (o & Hi & Ho).
  assert (Hq : offset_numeric r).
  { eapply Forall_forall; [done|]. by eapply list_elem_of_lookup_2. }
  destruct Hq as [q Hq].
  destruct (chirp_row_cells r q Hq) as (o' & Ho' & Hduplex & Hoffset & _).
  assert (o' = o) as -> by congruence.
  exists o, q. rewrite Hoff in *. repeat split; try done.
  rewrite Hduplex. by destruct Hsign as [-> | ->]; [left|right].
Qed.

Lemma chirp_duplex_offset_witness :
  ∃ rows, format_df_for_chirp [w1abc; k7dmr; k7dcs] = Ok rows
    ∧ length rows = length (chirp_kept [w1abc; k7dmr; k7dcs])
    ∧ ∀ i r c rest,
        chirp_kept [w1abc; k7dmr; k7dcs] !! i = Some r →
        Offset_MHz r = String c rest →
        c = "+"%char ∨ c = "-"%char →
        ∃ o q, rows !! i = Some (S i, o)
          ∧ cell o "Duplex" = VStr (String c "")
          ∧ (cell o "Duplex" = VStr "+" ∨ cell o "Duplex" = VStr "-")
          ∧ parse_decimal rest = Some q
          ∧ cell o "Offset" = VStr (format_f 6 q).
Proof.
  apply (chirp_duplex_offset [w1abc; k7dmr; k7dcs]).
  repeat constructor; vm_compute; eauto.
Defined.

(** C10.  Every row of the Generic-FM exporter has [cToneFreq = "88.5"],
    [DtcsPolarity = "NN"] and [TStep = "5.00"], DCS rows included, and
    [DtcsCode = "023"] when the tone of its record does not begin with
    [D]. *)
Theorem chirp_constant_columns (df : list Repeater) :
  Forall offset_numeric (chirp_kept df) →
  ∃ rows, format_df_for_chirp df = Ok rows
    ∧ length rows = length (chirp_kept df)
    ∧ ∀ i r,
        chirp_kept df !! i = Some r →
        ∃ o, rows !! i = Some (S i, o)
          ∧ cell o "cToneFreq" = VStr "88.5"
          ∧ cell o "DtcsPolarity" = VStr "NN"
          ∧ cell o "TStep" = VStr "5.00"
          ∧ (String.prefix "D" (Tone_Hz r) = false →
             cell o "DtcsCode" = VStr "023").
Proof.
  intros Hnum.
  destruct (format_df_for_chirp_rows df Hnum) as (os & Hrows & Hos).
  exists (numbered os). split; [done|]. split.
  { rewrite numbered_length. symmetry. by eapply Forall2_length. }
  intros i r Hr.
  destruct (chirp_rows_lookup df os i r Hos Hr) as (o & Hi & Ho).
  assert (Hq : offset_numeric r).
  { eapply Forall_forall; [done|]. by eapply list_elem_of_lookup_2. }
  destruct Hq as [q Hq].
  destruct (chirp_row_cells r q Hq)
    as (o' & Ho' & _ & _ & _ & _ & Hc & Hcode & Hpol & Hstep & _).
  assert (o' = o) as -> by congruence.
  exists o. repeat split; try done.
  intros Htone. by rewrite Hcode, Htone.
Qed.

Lemma chirp_constant_columns_witness :
  ∃ rows, format_df_for_chirp [w1abc; k7dmr; k7dcs] = Ok rows
    ∧ length rows = length (chirp_kept [w1abc; k7dmr; k7dcs])
    ∧ ∀ i r,
        chirp_kept [w1abc; k7dmr; k7dcs] !! i = Some r →
        ∃ o, rows !! i = Some (S i, o)
          ∧ cell o "cToneFreq" = VStr "88.5"
          ∧ cell o "DtcsPolarity" = VStr "NN"
          ∧ cell o "TStep" = VStr "5.00"
          ∧ (String.prefix "D" (Tone_Hz r) = false →
             cell o "DtcsCode" = VStr "023").
Proof.
  apply (chirp_constant_columns [w1abc; k7dmr; k7dcs]).
  repeat constructor; vm_compute; eauto.
Defined.

(** C3.  A row whose record has a tone beginning with [D] renders the code
    [tone[1:4]]: the Generic-FM exporter sets [Tone = "DTCS"],
    [DtcsCode = tone[1:4]] and [rToneFreq = "88.5"]; the Dual-Mode
    exporter, for a record that is not DMR, sets [CTCSS/DCS Encode] to
    ["D" + tone[1:4] + "N"]. *)
Theorem dcs_code_rendering (df : list Repeater) :
  (Forall offset_numeric (chirp_kept df) →
   ∃ rows, format_df_for_chirp df = Ok rows
     ∧ ∀ i r,
         chirp_kept df !! i = Some r →
         String.prefix "D" (Tone_Hz r) = true →
         ∃ o, rows !! i = Some (S i, o)
           ∧ cell o "Tone" = VStr "DTCS"
           ∧ cell o "DtcsCode" = VStr (substring 1 3 (Tone_Hz r))
           ∧ cell o "rToneFreq" = VStr "88.5")
  ∧ (Forall numeric (d878_kept df) →
     ∃ rows, format_df_for_d878 df = Ok rows
       ∧ ∀ i r,
           d878_selected df !! i = Some r →
           Mode r ≠ "DMR" →
           String.prefix "D" (Tone_Hz r) = true →
           ∃ o, rows !! i = Some (S i, o)
             ∧ cell o "CTCSS/DCS Encode" =
                 VStr (("D" +:+ substring 1 3 (Tone_Hz r)) +:+ "N")).
Proof.
  split.
  - intros Hnum.
    destruct (format_df_for_chirp_rows df Hnum) as (os & Hrows & Hos).
    exists (numbered os). split; [done|].
    intros i r Hr Htone.
    destruct (chirp_rows_lookup df os i r Hos Hr) as (o & Hi & Ho).
    assert (Hq : offset_numeric r).
    { eapply Forall_forall; [done|]. by eapply list_elem_of_lookup_2. }
    destruct Hq as [q Hq].
    destruct (chirp_row_cells r q Hq)
      as (o' & Ho' & _ & _ & Ht & Hrt & _ & Hcode & _).
    assert (o' = o) as -> by congruence.
    exists o. rewrite Htone in *. by repeat split.
  - intros Hnum.
    destruct (format_df_for_d878_rows df Hnum) as (os & Hrows & Hos).
    exists (numbered os). split; [done|].
    intros i r Hr Hmode Htone.
    destruct (d878_rows_lookup df os i r Hos Hr) as (o & Hi & Ho).
    assert (Hn : numeric r).
    { eapply d878_selected_numeric; [done|]. by eapply list_elem_of_lookup_2. }
    destruct Hn as [[qo Hqo] [qf Hqf]].
    destruct (d878_row_cells r qo qf Hqo Hqf)
      as (o' & Ho' & _ & _ & _ & _ & _ & _ & Henc & _).
    assert (o' = o) as -> by congruence.
    exists o. split; [done|]. rewrite Henc, Htone.
    by destruct (String.eqb_spec (Mode r) "DMR").
Qed.

Lemma dcs_code_rendering_witness :
  (∃ rows, format_df_for_chirp [w1abc; k7dmr; k7dcs] = Ok rows
     ∧ ∀ i r,
         chirp_kept [w1abc; k7dmr; k7dcs] !! i = Some r →
         String.prefix "D" (Tone_Hz r) = true →
         ∃ o, rows !! i = Some (S i, o)
           ∧ cell o "Tone" = VStr "DTCS"
           ∧ cell o "DtcsCode" = VStr (substring 1 3 (Tone_Hz r))
           ∧ cell o "rToneFreq" = VStr "88.5")
  ∧ (∃ rows, format_df_for_d878 [w1abc; k7dmr; k7dcs] = Ok rows
       ∧ ∀ i r,
           d878_selected [w1abc; k7dmr; k7dcs] !! i = Some r →
           Mode r ≠ "DMR" →
           String.prefix "D" (Tone_Hz r) = true →
           ∃ o, rows !! i = Some (S i, o)
             ∧ cell o "CTCSS/DCS Encode" =
                 VStr (("D" +:+ substring 1 3 (Tone_Hz r)) +:+ "N")).
Proof.
  destruct (dcs_code_rendering [w1abc; k7dmr; k7dcs]) as [Hchirp Hd878].
  split.
  - apply Hchirp. repeat constructor; vm_compute; eauto.
  - apply Hd878. repeat constructor; vm_compute; eauto.
Defined.

Lemma Qltb_lt x y : Qltb x y = true ↔ (x < y)%Q.
Proof.
  unfold Qltb. rewrite Qlt_alt. by destruct (x ?= y)%Q.
Qed.

Lemma in_band_spec lo hi r :
  in_band lo hi r = true ↔
  ∃ q, parse_decimal (Output_MHz r) = Some q ∧ (lo < q)%Q ∧ (q < hi)%Q.
Proof.
  unfold in_band. destruct (parse_decimal (Output_MHz r)) as [q|].
  - rewrite andb_true_iff, !Qltb_lt. split.
    + intros [? ?]. by exists q.
    + by intros (? & [= <-] & ? & ?).
  - split; [done|]. by intros (? & ? & _).
Qed.

Lemma has_mode_spec modes r : has_mode modes r = true ↔ Mode r ∈ modes.
Proof.
  unfold has_mode. rewrite existsb_exists. split.
  - intros (m & Hin & ->%String.eqb_eq). by apply list_elem_of_In.
  - intros Hin. exists (Mode r). split; [by apply list_elem_of_In|].
    apply String.eqb_refl.
Qed.

(** The records the Dual-Mode exporter selects are those of the registry
    with one of its four modes and an output frequency strictly inside the
    2m band or strictly inside the 70cm band. *)
Lemma elem_of_d878_selected df r :
  r ∈ d878_selected df ↔
  r ∈ df ∧ Mode r ∈ d878_modes
  ∧ ∃ q, parse_decimal (Output_MHz r) = Some q
       ∧ ((144 < q ∧ q < 148) ∨ (430 < q ∧ q < 450))%Q.
Proof.
  unfold d878_selected, d878_kept.
  rewrite elem_of_app, !list_elem_of_filter, !Is_true_true, !in_band_spec,
    has_mode_spec.
  split.
  - intros [((q & ? & ? & ?) & ? & ?)|((q & ? & ? & ?) & ? & ?)];
      (split; [done|]; split; [done|]); exists q; auto.
  - intros (? & ? & q & ? & [[? ?]|[? ?]]); [left|right];
      (split; [by exists q|done]).
Qed.

(** C4.  The Dual-Mode exporter emits one row for each record whose mode is
    FM, NBFM, DMR or Fusion and whose output frequency, read as a number,
    lies strictly inside (144, 148) or strictly inside (430, 450), and for
    no other record: the rows of the 2m records come first, then the rows
    of the 70cm records, each group in registry order, and the rows are
    labelled 1, 2, ... in that order.  It returns this table whenever the
    records that pass the mode filter have numeric frequency and offset. *)
Theorem d878_band_selection (df : list Repeater) :
  Forall numeric (d878_kept df) →
  ∃ rows, format_df_for_d878 df = Ok rows
    ∧ fst <$> rows = seq 1 (length (d878_selected df))
    ∧ Forall2
        (λ r row,
           cell (snd row) "Channel Name" = VStr (Callsign r)
           ∧ ∃ q, parse_decimal (Output_MHz r) = Some q
                ∧ cell (snd row) "Receive Frequency" = VFloat (round_to 3 q))
        (filter (λ r, in_band 144 148 r) (filter (λ r, has_mode d878_modes r) df)
         ++ filter (λ r, in_band 430 450 r) (filter (λ r, has_mode d878_modes r) df))
        rows
    ∧ ∀ r, r ∈ d878_selected df ↔
           r ∈ df ∧ Mode r ∈ d878_modes
           ∧ ∃ q, parse_decimal (Output_MHz r) = Some q
                ∧ ((144 < q ∧ q < 148) ∨ (430 < q ∧ q < 450))%Q.
Proof.
  intros Hnum.
  destruct (format_df_for_d878_rows df Hnum) as (os & Hrows & Hos).
  exists (numbered os). split; [done|]. split.
  { rewrite numbered_labels. f_equal. symmetry. by eapply Forall2_length. }
  split; [|apply elem_of_d878_selected].
  change (filter _ _ ++ filter _ _)%list with (d878_selected df).
  apply Forall2_same_length_lookup. split.
  { rewrite numbered_length. by eapply Forall2_length. }
  intros i r [n o] Hr Hi.
  destruct (d878_rows_lookup df os i r Hos Hr) as (o' & Hi' & Ho).
  assert (o' = o) as -> by congruence.
  assert (Hn : numeric r).
  { eapply d878_selected_numeric; [done|]. by eapply list_elem_of_lookup_2. }
  destruct Hn as [[qo Hqo] [qf Hqf]].
  destruct (d878_row_cells r qo qf Hqo Hqf) as (o' & Ho' & Hname & Hrx & _).
  assert (o' = o) as -> by congruence.
  simpl. split; [done|]. by exists qo.
Qed.

Lemma d878_band_selection_witness :
  ∃ rows, format_df_for_d878 [k7dcs; w1abc; k7dmr; k7bad] = Ok rows
    ∧ fst <$> rows = seq 1 (length (d878_selected [k7dcs; w1abc; k7dmr; k7bad]))
    ∧ Forall2
        (λ r row,
           cell (snd row) "Channel Name" = VStr (Callsign r)
           ∧ ∃ q, parse_decimal (Output_MHz r) = Some q
                ∧ cell (snd row) "Receive Frequency" = VFloat (round_to 3 q))
        (filter (λ r, in_band 144 148 r)
                (filter (λ r, has_mode d878_modes r) [k7dcs; w1abc; k7dmr; k7bad])
         ++ filter (λ r, in_band 430 450 r)
                   (filter (λ r, has_mode d878_modes r) [k7dcs; w1abc; k7dmr; k7bad]))
        rows
    ∧ ∀ r, r ∈ d878_selected [k7dcs; w1abc; k7dmr; k7bad] ↔
           r ∈ [k7dcs; w1abc; k7dmr; k7bad] ∧ Mode r ∈ d878_modes
           ∧ ∃ q, parse_decimal (Output_MHz r) = Some q
                ∧ ((144 < q ∧ q < 148) ∨ (430 < q ∧ q < 450))%Q.
Proof.
  apply (d878_band_selection [k7dcs; w1abc; k7dmr; k7bad]).
  repeat constructor; vm_compute; eauto.
Defined.

(** The selection on the sample registry: the two 2m records first. *)
Example d878_selected_sample :
  d878_selected [k7dcs; w1abc; k7dmr; k7bad] = [w1abc; k7bad; k7dcs; k7dmr].
Proof. reflexivity. Qed.

(** C1.  A record whose mode is DMR is classified by its mode: its row is a
    digital row with no [CTCSS/DCS Encode], whether or not its tone begins
    with [D].  When its tone does not match the DMR pattern the four
    captures are missing, nothing raises, and the row is emitted all the
    same, with [Contact], [Contact TG/DMR ID], [Color Code] and [Slot]
    missing. *)
Theorem d878_dmr_by_mode (df : list Repeater) :
  Forall numeric (d878_kept df) →
  ∃ rows, format_df_for_d878 df = Ok rows
    ∧ length rows = length (d878_selected df)
    ∧ ∀ i r,
        d878_selected df !! i = Some r →
        Mode r = "DMR" →
        ∃ o, rows !! i = Some (S i, o)
          ∧ cell o "Channel Type" = VStr "D-Digital"
          ∧ cell o "CTCSS/DCS Encode" = VNone
          ∧ (dmr_shaped (Tone_Hz r) = false →
             str_extract_dmr (VStr (Tone_Hz r)) = ∅
             ∧ cell o "Contact" = VNone
             ∧ cell o "Contact TG/DMR ID" = VNone
             ∧ cell o "Color Code" = VNone
             ∧ cell o "Slot" = VNone).
Proof.
  intros Hnum.
  destruct (format_df_for_d878_rows df Hnum) as (os & Hrows & Hos).
  exists (numbered os). split; [done|]. split.
  { rewrite numbered_length. symmetry. by eapply Forall2_length. }
  intros i r Hr Hmode.
  destruct (d878_rows_lookup df os i r Hos Hr) as (o & Hi & Ho).
  assert (Hn : numeric r).
  { eapply d878_selected_numeric; [done|]. by eapply list_elem_of_lookup_2. }
  destruct Hn as [[qo Hqo] [qf Hqf]].
  destruct (d878_row_cells r qo qf Hqo Hqf)
    as (o' & Ho' & _ & _ & _ & Htype & _ & _ & Henc & Hc & Hid & Hcc & Hslot & _).
  assert (o' = o) as -> by congruence.
  exists o. rewrite Hmode in *. cbn [String.eqb Ascii.eqb Bool.eqb] in *.
  repeat split; try done;
    unfold dmr_shaped in *; destruct (search_dmr (Tone_Hz r)) eqn:Hs; try done;
    try (simpl; by rewrite Hs);
    by rewrite ?Hc, ?Hid, ?Hcc, ?Hslot, dmr_capture_unmatched.
Qed.

Lemma d878_dmr_by_mode_witness :
  ∃ rows, format_df_for_d878 [k7dcs; w1abc; k7dmr; k7bad] = Ok rows
    ∧ length rows = length (d878_selected [k7dcs; w1abc; k7dmr; k7bad])
    ∧ ∀ i r,
        d878_selected [k7dcs; w1abc; k7dmr; k7bad] !! i = Some r →
        Mode r = "DMR" →
        ∃ o, rows !! i = Some (S i, o)
          ∧ cell o "Channel Type" = VStr "D-Digital"
          ∧ cell o "CTCSS/DCS Encode" = VNone
          ∧ (dmr_shaped (Tone_Hz r) = false →
             str_extract_dmr (VStr (Tone_Hz r)) = ∅
             ∧ cell o "Contact" = VNone
             ∧ cell o "Contact TG/DMR ID" = VNone
             ∧ cell o "Color Code" = VNone
             ∧ cell o "Slot" = VNone).
Proof.
  apply (d878_dmr_by_mode [k7dcs; w1abc; k7dmr; k7bad]).
  repeat constructor; vm_compute; eauto.
Defined.

(** The sample DMR record with the tone [D023N] is selected and its tone
    does not match the pattern. *)
Example k7bad_unmatched :
  d878_selected [k7dcs; w1abc; k7dmr; k7bad] !! 1%nat = Some k7bad
  ∧ Mode k7bad = "DMR" ∧ dmr_shaped (Tone_Hz k7bad) = false.
Proof. by repeat split. Qed.

(** C5 fails on the code.  Where the claim holds: an analog row has
    [Color Code = 1], and a DMR row whose tone matches the pattern has the
    decoded colour code, which is never empty. *)
Lemma d878_color_code df :
  Forall numeric (d878_kept df) →
  ∃ rows, format_df_for_d878 df = Ok rows
    ∧ ∀ i r,
        d878_selected df !! i = Some r →
        ∃ o, rows !! i = Some (S i, o)
          ∧ (Mode r ≠ "DMR" → cell o "Color Code" = VInt 1)
          ∧ (Mode r = "DMR" →
             ∀ color slot contact id,
               search_dmr (Tone_Hz r) = Some (color, slot, contact, id) →
               cell o "Color Code" = VStr color).
Proof.
  intros Hnum.
  destruct (format_df_for_d878_rows df Hnum) as (os & Hrows & Hos).
  exists (numbered os). split; [done|].
  intros i r Hr.
  destruct (d878_rows_lookup df os i r Hos Hr) as (o & Hi & Ho).
  assert (Hn : numeric r).
  { eapply d878_selected_numeric; [done|]. by eapply list_elem_of_lookup_2. }
  destruct Hn as [[qo Hqo] [qf Hqf]].
  destruct (d878_row_cells r qo qf Hqo Hqf)
    as (o' & Ho' & _ & _ & _ & _ & _ & _ & _ & _ & _ & Hcc & _).
  assert (o' = o) as -> by congruence.
  exists o. split; [done|]. rewrite Hcc. split.
  - intros Hmode. by destruct (String.eqb_spec (Mode r) "DMR").
  - intros -> color slot contact id Hs.
    cbn [String.eqb Ascii.eqb Bool.eqb]. unfold dmr_capture. simpl.
    rewrite Hs. by cells.
Qed.

(** C5, the failing input.  A single DMR record in the 2m band with the
    tone [D023N] is emitted with an empty [Color Code]: the overwrite of
    the DMR rows puts the missing capture over the default 1. *)
Theorem d878_color_code_empty :
  ∃ o, format_df_for_d878 [k7bad] = Ok [(1%nat, o)]
     ∧ cell o "Channel Type" = VStr "D-Digital"
     ∧ cell o "Color Code" = VNone.
Proof. eexists. by vm_compute. Qed.

(** C6 fails on the code: one record with an unreadable frequency takes
    the whole table with it.  With [k7odd] in the registry the exporter
    raises, and [w1abc], which is emitted when it is alone, gets no row. *)
Lemma d878_unparseable_not_skipped :
  format_df_for_d878 [w1abc; k7odd] = Raise ValueError
  ∧ (¬ ∃ rows, format_df_for_d878 [w1abc; k7odd] = Ok rows)
  ∧ ∃ o, format_df_for_d878 [w1abc] = Ok [(1%nat, o)].
Proof.
  split; [by vm_compute|]. split.
  - intros [rows H]. vm_compute in H. discriminate.
  - eexists. by vm_compute.
Qed.

(** What [pd.to_numeric] rejects and what it reads: [n/a] and a lone point
    are rejected; an exponent, blanks around a numeral, the empty string,
    [nan] and [inf] are read. *)
Example rejected_samples :
  rejected "n/a" ∧ rejected "." ∧ rejected "12 34"
  ∧ to_numeric (VStr "1.4694e2") = Ok (VFloat (7347 # 50))
  ∧ to_numeric (VStr " 146.94") = Ok (VFloat (7347 # 50))
  ∧ to_numeric (VStr "") = Ok VNone
  ∧ to_numeric (VStr "nan") = Ok VNone
  ∧ to_numeric (VStr "inf") = Ok (VInf false).
Proof. by repeat split. Qed.

(** C6, amended.  When [pd.to_numeric] rejects the output frequency or the
    offset of a record that passes the mode filter (a string such as [n/a],
    which is neither empty, nor a numeral, nor a spelling of [nan] or
    [inf]), the Dual-Mode exporter raises [ValueError] and produces no
    table. *)
Theorem d878_unparseable_aborts (df : list Repeater) (r : Repeater) :
  r ∈ df →
  Mode r ∈ d878_modes →
  rejected (Output_MHz r) ∨ rejected (Offset_MHz r) →
  format_df_for_d878 df = Raise ValueError.
Proof.
  intros Hr Hmode Hbad. apply format_df_for_d878_raises.
  apply Exists_exists. exists r. split; [|done].
  unfold d878_kept. apply list_elem_of_filter.
  split; [|done]. by apply Is_true_true, has_mode_spec.
Qed.

Lemma d878_unparseable_aborts_witness :
  format_df_for_d878 [w1abc; k7odd] = Raise ValueError.
Proof.
  apply (d878_unparseable_aborts [w1abc; k7odd] k7odd).
  - repeat constructor.
  - repeat constructor.
  - left. reflexivity.
Defined.

(** ** The claims on the map pins, first part *)

Lemma coords_array_missing df r :
  r ∈ df → Coordinates r = None → coords_array df = Raise ValueError.
Proof.
  intros Hr Hc. unfold coords_array. apply mapM_Raise.
  - apply Forall_forall. intros x _. destruct (Coordinates x); eauto.
  - apply Exists_exists. exists r. by rewrite Hc.
Qed.

(** C7 fails on the code: a record without coordinates is not left out of
    the clustering.  With [k7bad], which has none, between two records that
    have theirs, [write_map_md] raises; the two records alone give their
    pins. *)
Lemma write_map_md_missing_not_excluded :
  write_map_md [w1abc; k7bad; k7dcs] default_threshold = Raise ValueError
  ∧ (¬ ∃ pins, write_map_md [w1abc; k7bad; k7dcs] default_threshold = Ok pins)
  ∧ ∃ pins, write_map_md [w1abc; k7dcs] default_threshold = Ok pins.
Proof.
  split; [by vm_compute|]. split.
  - intros [pins H]. vm_compute in H. discriminate.
  - eexists. by vm_compute.
Qed.

(** C7, amended.  When a record of the registry has no coordinates, the
    coordinate array cannot be built: [write_map_md] raises and produces no
    pin, for any threshold. *)
Theorem write_map_md_missing_coordinates
    (df : list Repeater) (threshold : Q) (r : Repeater) :
  r ∈ df →
  Coordinates r = None →
  write_map_md df threshold = Raise ValueError
  ∧ map_pins df threshold = Raise ValueError.
Proof.
  intros Hr Hc. unfold write_map_md, map_pins.
  by rewrite (coords_array_missing df r).
Qed.

Lemma write_map_md_missing_coordinates_witness :
  write_map_md [w1abc; k7bad; k7dcs] default_threshold = Raise ValueError
  ∧ map_pins [w1abc; k7bad; k7dcs] default_threshold = Raise ValueError.
Proof.
  apply (write_map_md_missing_coordinates [w1abc; k7bad; k7dcs] _ k7bad).
  - repeat constructor.
  - reflexivity.
Defined.

(** ** The claim on candidate records *)

Lemma repeater_from_args_lookup args k v :
  repeater_from_args args !! k = Some v ↔
  repeater_fields args !! k = Some v ∧ truthy v = true.
Proof.
  unfold repeater_from_args. rewrite map_lookup_filter_Some. simpl.
  by rewrite Is_true_true.
Qed.

Lemma dict_merge_lookup (base override : gmap string value) k :
  dict_merge base override !! k =
  match override !! k with
  | Some v => Some v
  | None => base !! k
  end.
Proof.
  unfold dict_merge. rewrite lookup_union.
  destruct (override !! k), (base !! k); done.
Qed.

(** C9 fails on the code for the lookup source.  The sample page shows no
    uplink tone: the lookup returns its five keys, the tone among them with
    the empty string as its value, and the merged record keeps it when the
    arguments give no tone. *)
Lemma lookup_keeps_empty_tone :
  ∃ repeaterbook repeater,
    repeater_from_repeaterbook (λ _, sample_page) sample_eval (Some "42")
      = Ok repeaterbook
    ∧ repeaterbook !! "Tone (Hz)" = Some (VStr "")
    ∧ truthy (VStr "") = false
    ∧ new_repeater (λ _, sample_page) sample_eval sample_args = Ok repeater
    ∧ repeater !! "Tone (Hz)" = Some (VStr "").
Proof.
  eexists _, _. split; [by vm_compute|]. split; [by vm_compute|].
  split; [done|]. split; [by vm_compute|]. by vm_compute.
Qed.

(** C9, amended.  [repeater_from_args] omits every field of the arguments
    whose value is empty or otherwise falsy and keeps every other field
    unchanged; the merge of the looked-up record with it is right-biased
    and shallow: a field the arguments give replaces the looked-up one, any
    other field is the looked-up one. *)
Theorem candidate_record_construction
    (args : Args) (repeaterbook : gmap string value) :
  (∀ k v, repeater_from_args args !! k = Some v → truthy v = true)
  ∧ (∀ k v, repeater_fields args !! k = Some v →
            repeater_from_args args !! k = if truthy v then Some v else None)
  ∧ (∀ k v, repeater_from_args args !! k = Some v →
            dict_merge repeaterbook (repeater_from_args args) !! k = Some v)
  ∧ (∀ k, repeater_from_args args !! k = None →
          dict_merge repeaterbook (repeater_from_args args) !! k
          = repeaterbook !! k).
Proof.
  split; [|split; [|split]].
  - intros k v Hk. by apply repeater_from_args_lookup in Hk as [_ ?].
  - intros k v Hk. destruct (truthy v) eqn:Hv.
    + by apply repeater_from_args_lookup.
    + destruct (repeater_from_args args !! k) as [w|] eqn:Hw; [|done].
      apply repeater_from_args_lookup in Hw as [Hw1 Hw2]. congruence.
  - intros k v Hk. by rewrite dict_merge_lookup, Hk.
  - intros k Hk. by rewrite dict_merge_lookup, Hk.
Qed.

(** The fields of the sample arguments: the empty website and the fields
    left out are omitted, the group name and the mode are kept. *)
Example repeater_from_args_sample :
  repeater_from_args sample_args
  = <["Group Name" := VStr "PSRG"]> (<["Mode" := VStr "FM"]> ∅).
Proof. by vm_compute. Qed.
